(** * Clean-up phase of the NSX-V to NSX-T migrator

    Shallow embedding of [VMwareCloudDirectorNSXMigratorCleanup.run]
    (src/vcdNSXMigratorCleanup.py).  [run] is one straight-line sequence of
    calls on two remote clients inside [try: ... except Exception: raise].
    It is embedded in a state-and-exception monad whose state holds the state
    of the remote systems, the record of every client call made so far with
    what it returned, and the console log. *)

From Stdlib Require Import String List Bool Arith.
Import ListNotations.
Open Scope string_scope.

Set Implicit Arguments.

(** ** Exceptions and outcomes *)

(** The classes of the errors a step can end with.  [IndexError] is the one
    Python itself raises for [l[0]] on an empty list; the others are the
    taxonomy of the remote clients; [OtherException] stands for any other
    [Exception]. *)
Inductive exn_class :=
| AuthError
| NotFoundError
| ValidationError
| OperationError
| IndexError
| OtherException.

Record exn := mkExn { exn_kind : exn_class; exn_msg : string }.

Inductive outcome (A : Type) :=
| Ok (a : A)
| Raise (e : exn).
Arguments Ok {A} a.
Arguments Raise {A} e.

Definition outcome_map {A B} (f : A -> B) (o : outcome A) : outcome B :=
  match o with
  | Ok a => Ok (f a)
  | Raise e => Raise e
  end.

Definition is_ok {A} (o : outcome A) : bool :=
  match o with Ok _ => true | Raise _ => false end.

(** ** Data read by [run] *)

(** The configuration dictionaries, with the keys [run] reads. *)
Record CommonDict := {
  ipAddress : string;
  username : string;
  password : string;
  verify : bool
}.

Record OrganizationDict := { OrgName : string }.
Record SourceOrgVDCDict := { OrgVDCName : string }.
Record NSXVProviderVDCDict := {
  NSXV_ProviderVDCName : string;
  ExternalNetwork : string
}.
Record NSXTProviderVDCDict := { NSXT_ProviderVDCName : string }.

Record VcdDict := {
  Common : CommonDict;
  Organization : OrganizationDict;
  SourceOrgVDC : SourceOrgVDCDict;
  NSXVProviderVDC : NSXVProviderVDCDict;
  NSXTProviderVDC : NSXTProviderVDCDict
}.

Record NsxtDict := { nsxtCommon : CommonDict }.

(** [self]: the two dictionaries stored by [__init__]. *)
Record VMwareCloudDirectorNSXMigratorCleanup := {
  vcdDetails : VcdDict;
  nsxtDict : NsxtDict
}.

(** The edge-gateway payload, as [run] walks it:
    [edgeGatewayDetails['values'][i]['edgeGatewayUplinks'][j]] is an uplink
    with ['uplinkName'] and ['subnets']['values'][k]['ipRanges']['values']. *)
Record ipRange := { startAddress : string; endAddress : string }.
Record subnet := { ipRanges_values : list ipRange }.
Record uplink := { uplinkName : string; subnets_values : list subnet }.
Record edgeGateway := { edgeGatewayUplinks : list uplink }.
Record edgeGatewayPayload := { values : list edgeGateway }.

(** An Org VDC network, as listed by [getOrgVDCNetworks]. *)
Record network := { networkId : string; networkName : string }.

(** ** Client calls *)

(** One constructor per client method that [run] calls, with the arguments
    of the call. *)
Inductive call :=
| VcdLogin
| GetComputeManagers
| GetOrgUrl (orgName : string)
| GetProviderVDCId (pvdcName : string)
| GetOrgVDCDetails (orgUrl orgVDCName label : string) (saveResponse : bool)
| ValidateOrgVDCNSXbacking (orgVDCId pvdcId : string) (isNSXTbacked : bool)
| GetOrgVDCEdgeGateway (orgVDCId : string)
| ValidateTargetOrgVDCState (orgVDCId : string)
| GetOrgVDCNetworks (orgVDCId label : string) (saveResponse : bool)
| ValidateVappVMsMediaState (orgVDCId : string) (raiseError : bool)
| MigrateCatalogItems (sourceOrgVDCId targetOrgVDCId orgUrl : string)
| ClearBridging (orgVDCNetworkList : list network)
| DeleteOrgVDCNetworks (orgVDCId : string)
| DeleteNsxVBackedOrgVDCEdgeGateways (orgVDCId : string)
| DeleteOrgVDC (orgVDCId : string)
| RenameTargetOrgVDCNetworks (orgVDCId : string)
| RenameOrgVDC (newName orgVDCId : string)
| UpdateSourceExternalNetwork (networkName : string) (ipRanges : list ipRange)
| DeleteSession.

(** What a call returned, for the record of calls. *)
Inductive value :=
| VNone
| VStr (s : string)
| VPvdc (pvdcId : string) (isNSXTbacked : bool)
| VPayload (p : edgeGatewayPayload)
| VNetworks (l : list network).

Definition event := (call * outcome value)%type.

(** The calls that change the remote systems: catalog relocation, removal of
    bridging, the deletions, the renames and the IP-pool update. *)
Definition is_mutation (c : call) : bool :=
  match c with
  | MigrateCatalogItems _ _ _
  | ClearBridging _
  | DeleteOrgVDCNetworks _
  | DeleteNsxVBackedOrgVDCEdgeGateways _
  | DeleteOrgVDC _
  | RenameTargetOrgVDCNetworks _
  | RenameOrgVDC _ _
  | UpdateSourceExternalNetwork _ _
  | DeleteSession => true
  | _ => false
  end.

Definition is_deletion (c : call) : bool :=
  match c with
  | DeleteOrgVDCNetworks _
  | DeleteNsxVBackedOrgVDCEdgeGateways _
  | DeleteOrgVDC _ => true
  | _ => false
  end.

(** The method name of a call, without its arguments. *)
Inductive method :=
| m_vcdLogin
| m_getComputeManagers
| m_getOrgUrl
| m_getProviderVDCId
| m_getOrgVDCDetails
| m_validateOrgVDCNSXbacking
| m_getOrgVDCEdgeGateway
| m_validateTargetOrgVDCState
| m_getOrgVDCNetworks
| m_validateVappVMsMediaState
| m_migrateCatalogItems
| m_clearBridging
| m_deleteOrgVDCNetworks
| m_deleteNsxVBackedOrgVDCEdgeGateways
| m_deleteOrgVDC
| m_renameTargetOrgVDCNetworks
| m_renameOrgVDC
| m_updateSourceExternalNetwork
| m_deleteSession.

Definition method_of (c : call) : method :=
  match c with
  | VcdLogin => m_vcdLogin
  | GetComputeManagers => m_getComputeManagers
  | GetOrgUrl _ => m_getOrgUrl
  | GetProviderVDCId _ => m_getProviderVDCId
  | GetOrgVDCDetails _ _ _ _ => m_getOrgVDCDetails
  | ValidateOrgVDCNSXbacking _ _ _ => m_validateOrgVDCNSXbacking
  | GetOrgVDCEdgeGateway _ => m_getOrgVDCEdgeGateway
  | ValidateTargetOrgVDCState _ => m_validateTargetOrgVDCState
  | GetOrgVDCNetworks _ _ _ => m_getOrgVDCNetworks
  | ValidateVappVMsMediaState _ _ => m_validateVappVMsMediaState
  | MigrateCatalogItems _ _ _ => m_migrateCatalogItems
  | ClearBridging _ => m_clearBridging
  | DeleteOrgVDCNetworks _ => m_deleteOrgVDCNetworks
  | DeleteNsxVBackedOrgVDCEdgeGateways _ => m_deleteNsxVBackedOrgVDCEdgeGateways
  | DeleteOrgVDC _ => m_deleteOrgVDC
  | RenameTargetOrgVDCNetworks _ => m_renameTargetOrgVDCNetworks
  | RenameOrgVDC _ _ => m_renameOrgVDC
  | UpdateSourceExternalNetwork _ _ => m_updateSourceExternalNetwork
  | DeleteSession => m_deleteSession
  end.

Definition method_eqb (a b : method) : bool :=
  match a, b with
  | m_vcdLogin, m_vcdLogin
  | m_getComputeManagers, m_getComputeManagers
  | m_getOrgUrl, m_getOrgUrl
  | m_getProviderVDCId, m_getProviderVDCId
  | m_getOrgVDCDetails, m_getOrgVDCDetails
  | m_validateOrgVDCNSXbacking, m_validateOrgVDCNSXbacking
  | m_getOrgVDCEdgeGateway, m_getOrgVDCEdgeGateway
  | m_validateTargetOrgVDCState, m_validateTargetOrgVDCState
  | m_getOrgVDCNetworks, m_getOrgVDCNetworks
  | m_validateVappVMsMediaState, m_validateVappVMsMediaState
  | m_migrateCatalogItems, m_migrateCatalogItems
  | m_clearBridging, m_clearBridging
  | m_deleteOrgVDCNetworks, m_deleteOrgVDCNetworks
  | m_deleteNsxVBackedOrgVDCEdgeGateways, m_deleteNsxVBackedOrgVDCEdgeGateways
  | m_deleteOrgVDC, m_deleteOrgVDC
  | m_renameTargetOrgVDCNetworks, m_renameTargetOrgVDCNetworks
  | m_renameOrgVDC, m_renameOrgVDC
  | m_updateSourceExternalNetwork, m_updateSourceExternalNetwork
  | m_deleteSession, m_deleteSession => true
  | _, _ => false
  end.

(** Positions of a method in a list of methods, and "exactly one [a], exactly
    one [b], and the [a] comes first". *)
Fixpoint positions (a : method) (l : list method) (i : nat) : list nat :=
  match l with
  | [] => []
  | x :: l' =>
      if method_eqb a x then i :: positions a l' (S i) else positions a l' (S i)
  end.

Definition strictly_before (a b : method) (l : list method) : bool :=
  match positions a l 0, positions b l 0 with
  | [i], [j] => Nat.ltb i j
  | _, _ => false
  end.

(** ** Reading a record of calls *)

(** Every recorded call returned. *)
Definition all_returned (l : list event) : bool :=
  forallb (fun ev => is_ok (snd ev)) l.

(** Some call of method [m] is recorded as having returned. *)
Definition returned (m : method) (l : list event) : bool :=
  existsb (fun ev => method_eqb m (method_of (fst ev)) && is_ok (snd ev)) l.

(** The payload the first successful [getOrgVDCEdgeGateway] returned. *)
Fixpoint captured_payload (l : list event) : option edgeGatewayPayload :=
  match l with
  | [] => None
  | (GetOrgVDCEdgeGateway _, Ok (VPayload p)) :: _ => Some p
  | _ :: l' => captured_payload l'
  end.

(** The arguments of the [updateSourceExternalNetwork] calls, in order. *)
Fixpoint update_calls (l : list call) : list (string * list ipRange) :=
  match l with
  | [] => []
  | UpdateSourceExternalNetwork n r :: l' => (n, r) :: update_calls l'
  | _ :: l' => update_calls l'
  end.

(** The arguments of the [renameOrgVDC] calls, in order. *)
Fixpoint rename_calls (l : list call) : list (string * string) :=
  match l with
  | [] => []
  | RenameOrgVDC newName orgVDCId :: l' =>
      (newName, orgVDCId) :: rename_calls l'
  | _ :: l' => rename_calls l'
  end.

(** The [getOrgVDCDetails] calls made under [label]: the Org VDC name that
    was looked up and what the call returned. *)
Fixpoint resolutions (label : string) (l : list event)
    : list (string * outcome value) :=
  match l with
  | [] => []
  | (GetOrgVDCDetails _ orgVDCName label' _, o) :: l' =>
      if label' =? label
      then (orgVDCName, o) :: resolutions label l'
      else resolutions label l'
  | _ :: l' => resolutions label l'
  end.

(** Some call of method [m] is recorded. *)
Definition called (m : method) (l : list event) : bool :=
  existsb (fun ev => method_eqb m (method_of (fst ev))) l.

(** The error of the first recorded call of method [m] that raised. *)
Fixpoint raised_by (m : method) (l : list event) : option exn :=
  match l with
  | [] => None
  | (c, Raise e) :: l' =>
      if method_eqb m (method_of c) then Some e else raised_by m l'
  | _ :: l' => raised_by m l'
  end.

(** ** Further readings of a record of calls *)

Fixpoint is_prefix (l1 l2 : list method) : bool :=
  match l1, l2 with
  | [], _ => true
  | x :: l1', y :: l2' => method_eqb x y && is_prefix l1' l2'
  | _ :: _, [] => false
  end.

(** The methods [run] calls before it reconciles the IP pool (lines 59-134),
    in the order of the source. *)
Definition steps_to_rename : list method :=
  [m_vcdLogin; m_getComputeManagers; m_getOrgUrl; m_getProviderVDCId;
   m_getOrgVDCDetails; m_validateOrgVDCNSXbacking; m_getOrgVDCEdgeGateway;
   m_getProviderVDCId; m_getOrgVDCDetails; m_validateOrgVDCNSXbacking;
   m_validateTargetOrgVDCState; m_getOrgVDCNetworks;
   m_validateVappVMsMediaState; m_migrateCatalogItems; m_clearBridging;
   m_deleteOrgVDCNetworks; m_deleteNsxVBackedOrgVDCEdgeGateways;
   m_deleteOrgVDC; m_renameTargetOrgVDCNetworks; m_renameOrgVDC].

(** The Org VDC ids passed to the calls that read or destroy the source side:
    the edge-gateway read, the catalog relocation (its first argument) and
    the three deletions. *)
Fixpoint source_side_ids (l : list call) : list string :=
  match l with
  | [] => []
  | GetOrgVDCEdgeGateway id :: l'
  | MigrateCatalogItems id _ _ :: l'
  | DeleteOrgVDCNetworks id :: l'
  | DeleteNsxVBackedOrgVDCEdgeGateways id :: l'
  | DeleteOrgVDC id :: l' => id :: source_side_ids l'
  | _ :: l' => source_side_ids l'
  end.

(** The Org VDC ids passed to the calls that check or change the target
    side: the enabled check, the network listing, the media check, the
    catalog relocation (its second argument) and the two renames. *)
Fixpoint target_side_ids (l : list call) : list string :=
  match l with
  | [] => []
  | ValidateTargetOrgVDCState id :: l'
  | GetOrgVDCNetworks id _ _ :: l'
  | ValidateVappVMsMediaState id _ :: l'
  | MigrateCatalogItems _ id _ :: l'
  | RenameTargetOrgVDCNetworks id :: l'
  | RenameOrgVDC _ id :: l' => id :: target_side_ids l'
  | _ :: l' => target_side_ids l'
  end.

(** The organization handles passed to [getOrgVDCDetails] and
    [migrateCatalogItems]. *)
Fixpoint org_urls_used (l : list call) : list string :=
  match l with
  | [] => []
  | GetOrgVDCDetails orgUrl _ _ _ :: l'
  | MigrateCatalogItems _ _ orgUrl :: l' => orgUrl :: org_urls_used l'
  | _ :: l' => org_urls_used l'
  end.

(** The [getOrgUrl] calls: the name looked up and the result. *)
Fixpoint org_lookups (l : list event) : list (string * outcome value) :=
  match l with
  | [] => []
  | (GetOrgUrl orgName, o) :: l' => (orgName, o) :: org_lookups l'
  | _ :: l' => org_lookups l'
  end.

(** The [getProviderVDCId] calls: the name looked up and the result. *)
Fixpoint provider_lookups (l : list event) : list (string * outcome value) :=
  match l with
  | [] => []
  | (GetProviderVDCId pvdcName, o) :: l' => (pvdcName, o) :: provider_lookups l'
  | _ :: l' => provider_lookups l'
  end.

(** The arguments of the [validateOrgVDCNSXbacking] calls, in order. *)
Fixpoint backing_validations (l : list call) : list (string * string * bool) :=
  match l with
  | [] => []
  | ValidateOrgVDCNSXbacking orgVDCId pvdcId isNSXTbacked :: l' =>
      (orgVDCId, pvdcId, isNSXTbacked) :: backing_validations l'
  | _ :: l' => backing_validations l'
  end.

(** The [getOrgVDCNetworks] calls: the arguments and the result. *)
Fixpoint network_listings (l : list event)
    : list (string * string * bool * outcome value) :=
  match l with
  | [] => []
  | (GetOrgVDCNetworks orgVDCId label saveResponse, o) :: l' =>
      (orgVDCId, label, saveResponse, o) :: network_listings l'
  | _ :: l' => network_listings l'
  end.

(** The network lists passed to [clearBridging]. *)
Fixpoint bridging_calls (l : list call) : list (list network) :=
  match l with
  | [] => []
  | ClearBridging orgVDCNetworkList :: l' =>
      orgVDCNetworkList :: bridging_calls l'
  | _ :: l' => bridging_calls l'
  end.

(** How many calls of method [m] are recorded as having returned. *)
Definition count_returned (m : method) (l : list event) : nat :=
  length (filter (fun ev => method_eqb m (method_of (fst ev)) && is_ok (snd ev))
                 l).

(** ** The remote systems and the monad of [run] *)

Inductive level := INFO | DEBUG.

Definition level_eqb (a b : level) : bool :=
  match a, b with
  | INFO, INFO | DEBUG, DEBUG => true
  | _, _ => false
  end.

(** The console log has the line [msg] at level [lvl]. *)
Definition logged (lvl : level) (msg : string) (l : list (level * string))
    : bool :=
  existsb (fun line => level_eqb lvl (fst line) && (snd line =? msg)) l.

Section Model.

(** The joint state of the two remote systems. *)
Variable W : Type.

(** The vCloud Director client (src/core/vcd/vcdOperations.py, not part of
    the sources of this module): for each method [run] calls, what the remote
    system answers in a given state and the state it is left in.  The three
    last fields are the facts the validation gates look at. *)
Record VCloudDirectorOperations := {
  on_vcdLogin : W -> outcome unit * W;
  on_getOrgUrl : string -> W -> outcome string * W;
  on_getProviderVDCId : string -> W -> outcome (string * bool) * W;
  on_getOrgVDCDetails :
    string -> string -> string -> bool -> W -> outcome string * W;
  on_getOrgVDCEdgeGateway : string -> W -> outcome edgeGatewayPayload * W;
  on_getOrgVDCNetworks :
    string -> string -> bool -> W -> outcome (list network) * W;
  on_migrateCatalogItems : string -> string -> string -> W -> outcome unit * W;
  on_deleteOrgVDCNetworks : string -> W -> outcome unit * W;
  on_deleteNsxVBackedOrgVDCEdgeGateways : string -> W -> outcome unit * W;
  on_deleteOrgVDC : string -> W -> outcome unit * W;
  on_renameTargetOrgVDCNetworks : string -> W -> outcome unit * W;
  on_renameOrgVDC : string -> string -> W -> outcome unit * W;
  on_updateSourceExternalNetwork :
    string -> list ipRange -> W -> outcome unit * W;
  on_deleteSession : W -> outcome unit * W;
  (* is the Org VDC bound to this provider VDC, with this backing? *)
  orgVDCBackingMatches : string -> string -> bool -> W -> bool;
  (* is the Org VDC enabled? *)
  orgVDCEnabled : string -> W -> bool;
  (* has some vApp VM of the Org VDC media attached? *)
  mediaAttached : string -> W -> bool
}.

(** The NSX-T client (src/core/nsxt/nsxtOperations.py). *)
Record NSXTOperations := {
  on_getComputeManagers : W -> outcome unit * W;
  on_clearBridging : list network -> W -> outcome unit * W
}.

(** The two class constructors, [VCloudDirectorOperations(ip, user, pw, verify)]
    and [NSXTOperations(ip, user, pw, verify)]: they build a client from the
    credentials and make no remote call. *)
Record Platform := {
  VCloudDirectorOperations_init :
    string -> string -> string -> bool -> VCloudDirectorOperations;
  NSXTOperations_init :
    string -> string -> string -> bool -> NSXTOperations
}.

Variable platform : Platform.

(** What [run] threads along: the remote state, the record of the client
    calls with their results (oldest first), and the console log. *)
Record state := {
  remote : W;
  events : list event;
  console : list (level * string)
}.

Definition initial (w : W) : state :=
  {| remote := w; events := []; console := [] |}.

Definition M (A : Type) : Type := state -> outcome A * state.

Definition ret {A} (a : A) : M A := fun s => (Ok a, s).

Definition raise {A} (e : exn) : M A := fun s => (Raise e, s).

Definition bind {A B} (m : M A) (f : A -> M B) : M B :=
  fun s =>
    match m s with
    | (Ok a, s') => f a s'
    | (Raise e, s') => (Raise e, s')
    end.

(** [try: m except Exception as e: h e] *)
Definition try_except {A} (m : M A) (h : exn -> M A) : M A :=
  fun s =>
    match m s with
    | (Ok a, s') => (Ok a, s')
    | (Raise e, s') => h e s'
    end.

(** A call on a client: the remote system answers and moves to its next
    state, and the call is recorded with its result, also when it raised. *)
Definition invoke {R} (c : call) (inj : R -> value)
    (h : W -> outcome R * W) : M R :=
  fun s =>
    let (o, w') := h (remote s) in
    (o, {| remote := w';
           events := events s ++ [(c, outcome_map inj o)];
           console := console s |}).

Definition log (lvl : level) (msg : string) : M unit :=
  fun s =>
    (Ok tt, {| remote := remote s;
               events := events s;
               console := console s ++ [(lvl, msg)] |}).

Definition info := log INFO.
Definition debug := log DEBUG.

(** Python's [l[i]] for [i >= 0]: [IndexError] when out of range. *)
Definition getitem {A} (l : list A) (i : nat) : M A :=
  match nth_error l i with
  | Some x => ret x
  | None => raise (mkExn IndexError "list index out of range")
  end.

(** Python's truth value of a list. *)
Definition truthy {A} (l : list A) : bool :=
  match l with [] => false | _ :: _ => true end.

(* begin hide *)
Local Notation "x <- m ;; k" := (bind m (fun x => k))
  (at level 61, m at next level, right associativity).
Local Notation "' pat <- m ;; k" := (bind m (fun x => match x with pat => k end))
  (at level 61, pat pattern, m at next level, right associativity).
Local Notation "m ;; k" := (bind m (fun _ => k))
  (at level 61, right associativity).
(* end hide *)

Definition to_none (_ : unit) : value := VNone.
Definition to_pvdc (r : string * bool) : value := VPvdc (fst r) (snd r).

(** ** Methods of the vCloud Director client *)

Section VcdMethods.
Variable self : VCloudDirectorOperations.

Definition vcdLogin : M unit :=
  invoke VcdLogin to_none (on_vcdLogin self).

Definition getOrgUrl (orgName : string) : M string :=
  invoke (GetOrgUrl orgName) VStr (on_getOrgUrl self orgName).

Definition getProviderVDCId (pvdcName : string) : M (string * bool) :=
  invoke (GetProviderVDCId pvdcName) to_pvdc (on_getProviderVDCId self pvdcName).

Definition getOrgVDCDetails (orgUrl orgVDCName label : string)
    (saveResponse : bool) : M string :=
  invoke (GetOrgVDCDetails orgUrl orgVDCName label saveResponse) VStr
         (on_getOrgVDCDetails self orgUrl orgVDCName label saveResponse).

(** Modelled from the spec: [validateOrgVDCNSXbacking] is defined in
    src/core/vcd/vcdOperations.py, which is missing.  Its contract in the
    spec is [validateContainerBacking(containerId, poolId,
    isNewTechnologyBacked) -> () | fails ValidationError]: it returns when the
    container's backing matches the pool's, fails with [ValidationError]
    when it does not, and changes nothing. *)
Definition validateOrgVDCNSXbacking (orgVDCId pvdcId : string)
    (isNSXTbacked : bool) : M unit :=
  invoke (ValidateOrgVDCNSXbacking orgVDCId pvdcId isNSXTbacked) to_none
    (fun w =>
       if orgVDCBackingMatches self orgVDCId pvdcId isNSXTbacked w
       then (Ok tt, w)
       else (Raise (mkExn ValidationError "Org VDC backing mismatch"), w)).

Definition getOrgVDCEdgeGateway (orgVDCId : string) : M edgeGatewayPayload :=
  invoke (GetOrgVDCEdgeGateway orgVDCId) VPayload
         (on_getOrgVDCEdgeGateway self orgVDCId).

(** Modelled from the spec: [validateTargetOrgVDCState] is defined in the
    missing src/core/vcd/vcdOperations.py.  Its contract in the spec is
    [validateContainerEnabled(containerId) -> () | fails ValidationError]:
    it fails with [ValidationError] when the container is disabled. *)
Definition validateTargetOrgVDCState (orgVDCId : string) : M unit :=
  invoke (ValidateTargetOrgVDCState orgVDCId) to_none
    (fun w =>
       if orgVDCEnabled self orgVDCId w
       then (Ok tt, w)
       else (Raise (mkExn ValidationError "Org VDC is disabled"), w)).

Definition getOrgVDCNetworks (orgVDCId label : string) (saveResponse : bool)
    : M (list network) :=
  invoke (GetOrgVDCNetworks orgVDCId label saveResponse) VNetworks
         (on_getOrgVDCNetworks self orgVDCId label saveResponse).

(** Modelled from the spec: [validateVappVMsMediaState] is defined in the
    missing src/core/vcd/vcdOperations.py.  Its contract in the spec is
    [validateNoMediaAttached(containerId, strict: bool) -> () | fails
    ValidationError]: with [strict] set, attached media is an error that is
    raised, not silently ignored. *)
Definition validateVappVMsMediaState (orgVDCId : string) (raiseError : bool)
    : M unit :=
  invoke (ValidateVappVMsMediaState orgVDCId raiseError) to_none
    (fun w =>
       if mediaAttached self orgVDCId w && raiseError
       then (Raise (mkExn ValidationError "media attached to a vApp VM"), w)
       else (Ok tt, w)).

Definition migrateCatalogItems (sourceOrgVDCId targetOrgVDCId orgUrl : string)
    : M unit :=
  invoke (MigrateCatalogItems sourceOrgVDCId targetOrgVDCId orgUrl) to_none
         (on_migrateCatalogItems self sourceOrgVDCId targetOrgVDCId orgUrl).

Definition deleteOrgVDCNetworks (orgVDCId : string) : M unit :=
  invoke (DeleteOrgVDCNetworks orgVDCId) to_none
         (on_deleteOrgVDCNetworks self orgVDCId).

Definition deleteNsxVBackedOrgVDCEdgeGateways (orgVDCId : string) : M unit :=
  invoke (DeleteNsxVBackedOrgVDCEdgeGateways orgVDCId) to_none
         (on_deleteNsxVBackedOrgVDCEdgeGateways self orgVDCId).

Definition deleteOrgVDC (orgVDCId : string) : M unit :=
  invoke (DeleteOrgVDC orgVDCId) to_none (on_deleteOrgVDC self orgVDCId).

Definition renameTargetOrgVDCNetworks (orgVDCId : string) : M unit :=
  invoke (RenameTargetOrgVDCNetworks orgVDCId) to_none
         (on_renameTargetOrgVDCNetworks self orgVDCId).

Definition renameOrgVDC (newName orgVDCId : string) : M unit :=
  invoke (RenameOrgVDC newName orgVDCId) to_none
         (on_renameOrgVDC self newName orgVDCId).

Definition updateSourceExternalNetwork (networkName : string)
    (ipRanges : list ipRange) : M unit :=
  invoke (UpdateSourceExternalNetwork networkName ipRanges) to_none
         (on_updateSourceExternalNetwork self networkName ipRanges).

Definition deleteSession : M unit :=
  invoke DeleteSession to_none (on_deleteSession self).

End VcdMethods.

(** ** Methods of the NSX-T client *)

Definition getComputeManagers (self : NSXTOperations) : M unit :=
  invoke GetComputeManagers to_none (on_getComputeManagers self).

Definition clearBridging (self : NSXTOperations)
    (orgVDCNetworkList : list network) : M unit :=
  invoke (ClearBridging orgVDCNetworkList) to_none
         (on_clearBridging self orgVDCNetworkList).

(** ** [run] *)

(** The two clients [run] builds from the configuration (lines 47-55). *)
Definition vcdObj_of (self : VMwareCloudDirectorNSXMigratorCleanup)
    : VCloudDirectorOperations :=
  let commonDict := Common (vcdDetails self) in
  VCloudDirectorOperations_init platform
    (ipAddress commonDict) (username commonDict)
    (password commonDict) (verify commonDict).

Definition nsxtObj_of (self : VMwareCloudDirectorNSXMigratorCleanup)
    : NSXTOperations :=
  let nsxtCommonDict := nsxtCommon (nsxtDict self) in
  NSXTOperations_init platform
    (ipAddress nsxtCommonDict) (username nsxtCommonDict)
    (password nsxtCommonDict) (verify nsxtCommonDict).

(** Lines 41-152, statement by statement. *)
Definition run (self : VMwareCloudDirectorNSXMigratorCleanup) : M unit :=
  try_except
    (let commonDict := Common (vcdDetails self) in
     let orgName := OrgName (Organization (vcdDetails self)) in
     let sourceOrgVDCName := OrgVDCName (SourceOrgVDC (vcdDetails self)) in
     let sourceExternalNetworkName :=
       ExternalNetwork (NSXVProviderVDC (vcdDetails self)) in
     let vcdObj := vcdObj_of self in
     let nsxtCommonDict := nsxtCommon (nsxtDict self) in
     let nsxtObj := nsxtObj_of self in
     info ("Logging into the VMware Cloud Director " ++ ipAddress commonDict) ;;
     vcdLogin vcdObj ;;
     info ("Logging into the NSX-T - " ++ ipAddress nsxtCommonDict) ;;
     getComputeManagers nsxtObj ;;
     info ("Getting the Organization " ++ orgName ++ " details.") ;;
     orgUrl <- getOrgUrl vcdObj orgName ;;
     info ("Getting the source Provider VDC - "
           ++ NSXV_ProviderVDCName (NSXVProviderVDC (vcdDetails self))
           ++ " details.") ;;
     '(sourceProviderVDCId, isNSXTbacked) <-
       getProviderVDCId vcdObj
         (NSXV_ProviderVDCName (NSXVProviderVDC (vcdDetails self))) ;;
     info ("Getting the source Organization VDC " ++ sourceOrgVDCName
           ++ " details.") ;;
     sourceOrgVDCId <-
       getOrgVDCDetails vcdObj orgUrl sourceOrgVDCName "sourceOrgVDC" false ;;
     info "Validating whether source Org VDC is NSX-V backed" ;;
     validateOrgVDCNSXbacking vcdObj sourceOrgVDCId sourceProviderVDCId
                              isNSXTbacked ;;
     edgeGatewayDetails <- getOrgVDCEdgeGateway vcdObj sourceOrgVDCId ;;
     info ("Getting the target Provider VDC - "
           ++ NSXT_ProviderVDCName (NSXTProviderVDC (vcdDetails self))
           ++ " details.") ;;
     '(targetProviderVDCId, isNSXTbacked) <-
       getProviderVDCId vcdObj
         (NSXT_ProviderVDCName (NSXTProviderVDC (vcdDetails self))) ;;
     info ("Getting the target Organization VDC " ++ (sourceOrgVDCName ++ "-t")
           ++ " details.") ;;
     targetOrgVDCId <-
       getOrgVDCDetails vcdObj orgUrl (sourceOrgVDCName ++ "-t")
                        "targetOrgVDC" false ;;
     info "Validating whether target Org VDC is NSX-T backed" ;;
     validateOrgVDCNSXbacking vcdObj targetOrgVDCId targetProviderVDCId
                              isNSXTbacked ;;
     info "Validating whether target Org VDC is enabled" ;;
     validateTargetOrgVDCState vcdObj targetOrgVDCId ;;
     info ("Getting the target Organization VDC " ++ (sourceOrgVDCName ++ "-t")
           ++ " network details.") ;;
     orgVDCNetworkList <-
       getOrgVDCNetworks vcdObj targetOrgVDCId "targetOrgVDCNetworks" false ;;
     info "Validating whether media is attached to any vApp VMs" ;;
     validateVappVMsMediaState vcdObj targetOrgVDCId true ;;
     info "Migrating catalog items - vApp Templates & media objects." ;;
     migrateCatalogItems vcdObj sourceOrgVDCId targetOrgVDCId orgUrl ;;
     info "Removing bridging from NSX-T" ;;
     clearBridging nsxtObj orgVDCNetworkList ;;
     info "Deleting the source Org VDC Networks." ;;
     deleteOrgVDCNetworks vcdObj sourceOrgVDCId ;;
     info "Deleting the source Org VDC Edge Gateway." ;;
     deleteNsxVBackedOrgVDCEdgeGateways vcdObj sourceOrgVDCId ;;
     info "Deleting the source Org VDC." ;;
     deleteOrgVDC vcdObj sourceOrgVDCId ;;
     info "Renaming the target Org VDC networks" ;;
     renameTargetOrgVDCNetworks vcdObj targetOrgVDCId ;;
     info "Renaming target Org VDC." ;;
     renameOrgVDC vcdObj sourceOrgVDCName targetOrgVDCId ;;
     gateway0 <- getitem (values edgeGatewayDetails) 0 ;;
     let sourceExternalNetwork :=
       filter (fun uplink => uplinkName uplink =? sourceExternalNetworkName)
              (edgeGatewayUplinks gateway0) in
     (if truthy sourceExternalNetwork then
        uplink0 <- getitem sourceExternalNetwork 0 ;;
        subnet0 <- getitem (subnets_values uplink0) 0 ;;
        if truthy (ipRanges_values subnet0) then
          uplink0 <- getitem sourceExternalNetwork 0 ;;
          subnet0 <- getitem (subnets_values uplink0) 0 ;;
          let ipRanges := ipRanges_values subnet0 in
          info "Updating the source External network." ;;
          updateSourceExternalNetwork vcdObj sourceExternalNetworkName ipRanges
        else ret tt
      else ret tt) ;;
     info "Successfully cleaned up Source Org VDC." ;;
     debug "Logging out the current vmware cloud director user" ;;
     deleteSession vcdObj)
    (fun e => raise e).

(** The result of [run] from a remote state, and the state it ends in. *)
Definition outcome_of (self : VMwareCloudDirectorNSXMigratorCleanup) (w : W)
    : outcome unit :=
  fst (run self (initial w)).

Definition final_of (self : VMwareCloudDirectorNSXMigratorCleanup) (w : W)
    : state :=
  snd (run self (initial w)).

Definition trace_of (self : VMwareCloudDirectorNSXMigratorCleanup) (w : W)
    : list event :=
  events (final_of self w).

(** ** Configurations that reach a validation gate *)

(** Both logins return and the organization, the source provider VDC and the
    source Org VDC resolve (lines 59-75).  Gives the handle and ids they
    returned and the remote state in which the backing of the source Org VDC
    is then validated. *)
Definition source_resolved (self : VMwareCloudDirectorNSXMigratorCleanup)
    (w0 : W) : option (string * string * bool * string * W) :=
  let vcdObj := vcdObj_of self in
  match on_vcdLogin vcdObj w0 with
  | (Ok _, w1) =>
      match on_getComputeManagers (nsxtObj_of self) w1 with
      | (Ok _, w2) =>
          match on_getOrgUrl vcdObj (OrgName (Organization (vcdDetails self)))
                             w2 with
          | (Ok orgUrl, w3) =>
              match on_getProviderVDCId vcdObj
                      (NSXV_ProviderVDCName (NSXVProviderVDC (vcdDetails self)))
                      w3 with
              | (Ok (sourceProviderVDCId, isNSXTbacked), w4) =>
                  match on_getOrgVDCDetails vcdObj orgUrl
                          (OrgVDCName (SourceOrgVDC (vcdDetails self)))
                          "sourceOrgVDC" false w4 with
                  | (Ok sourceOrgVDCId, w5) =>
                      Some (orgUrl, sourceProviderVDCId, isNSXTbacked,
                            sourceOrgVDCId, w5)
                  | (Raise _, _) => None
                  end
              | (Raise _, _) => None
              end
          | (Raise _, _) => None
          end
      | (Raise _, _) => None
      end
  | (Raise _, _) => None
  end.

(** Moreover the source Org VDC passes its backing validation, its edge
    gateways are read, the target provider VDC and the target Org VDC resolve
    and the target passes its backing validation (lines 79-94).  Gives the id
    of the target Org VDC and the remote state in which it is then checked to
    be enabled. *)
Definition target_validated (self : VMwareCloudDirectorNSXMigratorCleanup)
    (w0 : W) : option (string * W) :=
  let vcdObj := vcdObj_of self in
  match source_resolved self w0 with
  | Some (orgUrl, sourceProviderVDCId, isNSXTbacked, sourceOrgVDCId, w5) =>
      if orgVDCBackingMatches vcdObj sourceOrgVDCId sourceProviderVDCId
                              isNSXTbacked w5
      then
        match on_getOrgVDCEdgeGateway vcdObj sourceOrgVDCId w5 with
        | (Ok _, w6) =>
            match on_getProviderVDCId vcdObj
                    (NSXT_ProviderVDCName (NSXTProviderVDC (vcdDetails self)))
                    w6 with
            | (Ok (targetProviderVDCId, isNSXTbacked), w7) =>
                match on_getOrgVDCDetails vcdObj orgUrl
                        (OrgVDCName (SourceOrgVDC (vcdDetails self)) ++ "-t")
                        "targetOrgVDC" false w7 with
                | (Ok targetOrgVDCId, w8) =>
                    if orgVDCBackingMatches vcdObj targetOrgVDCId
                                            targetProviderVDCId isNSXTbacked w8
                    then Some (targetOrgVDCId, w8)
                    else None
                | (Raise _, _) => None
                end
            | (Raise _, _) => None
            end
        | (Raise _, _) => None
        end
      else None
  | None => None
  end.

(** Moreover the target Org VDC is enabled and its networks are listed
    (lines 98-102).  Gives the id of the target Org VDC and the remote state
    in which its vApp VMs are then checked for attached media. *)
Definition networks_listed (self : VMwareCloudDirectorNSXMigratorCleanup)
    (w0 : W) : option (string * W) :=
  let vcdObj := vcdObj_of self in
  match target_validated self w0 with
  | Some (targetOrgVDCId, w8) =>
      if orgVDCEnabled vcdObj targetOrgVDCId w8
      then
        match on_getOrgVDCNetworks vcdObj targetOrgVDCId
                "targetOrgVDCNetworks" false w8 with
        | (Ok _, w9) => Some (targetOrgVDCId, w9)
        | (Raise _, _) => None
        end
      else None
  | None => None
  end.

(** [Q] holds of every result of [m] from [s]. *)
Definition wp {A} (m : M A) (Q : outcome A -> state -> Prop) (s : state)
    : Prop :=
  forall r s', m s = (r, s') -> Q r s'.

End Model.

Arguments initial {W} w.
Arguments ret {W A} a.
Arguments raise {W A} e.

(** ** A small cloud to run [run] on *)

Module Demo.

(** A remote state with one source Org VDC [vdc1] and its target [vdc1-t]. *)
Record Cloud := {
  session : bool;                 (* a user session is open *)
  sourceBackingOk : bool;         (* the source Org VDC matches its provider VDC *)
  targetEnabled : bool;
  targetMedia : bool;             (* media attached to a target vApp VM *)
  gateways : edgeGatewayPayload;  (* edge gateways of the source Org VDC *)
  logoutRefused : bool;           (* the session cannot be deleted *)
  bridged : bool;                 (* NSX-T bridging is in place *)
  sourceParts : list string;      (* what is left of the source Org VDC *)
  targetName : string;
  externalPool : list ipRange     (* IP pool of the source external network *)
}.

Definition set_session (b : bool) (w : Cloud) : Cloud :=
  {| session := b; sourceBackingOk := sourceBackingOk w;
     targetEnabled := targetEnabled w; targetMedia := targetMedia w;
     gateways := gateways w; logoutRefused := logoutRefused w;
     bridged := bridged w; sourceParts := sourceParts w;
     targetName := targetName w; externalPool := externalPool w |}.

Definition set_bridged (b : bool) (w : Cloud) : Cloud :=
  {| session := session w; sourceBackingOk := sourceBackingOk w;
     targetEnabled := targetEnabled w; targetMedia := targetMedia w;
     gateways := gateways w; logoutRefused := logoutRefused w;
     bridged := b; sourceParts := sourceParts w;
     targetName := targetName w; externalPool := externalPool w |}.

Definition drop_part (part : string) (w : Cloud) : Cloud :=
  {| session := session w; sourceBackingOk := sourceBackingOk w;
     targetEnabled := targetEnabled w; targetMedia := targetMedia w;
     gateways := gateways w; logoutRefused := logoutRefused w;
     bridged := bridged w;
     sourceParts := filter (fun x => negb (x =? part)) (sourceParts w);
     targetName := targetName w; externalPool := externalPool w |}.

Definition set_targetName (n : string) (w : Cloud) : Cloud :=
  {| session := session w; sourceBackingOk := sourceBackingOk w;
     targetEnabled := targetEnabled w; targetMedia := targetMedia w;
     gateways := gateways w; logoutRefused := logoutRefused w;
     bridged := bridged w; sourceParts := sourceParts w;
     targetName := n; externalPool := externalPool w |}.

Definition add_pool (r : list ipRange) (w : Cloud) : Cloud :=
  {| session := session w; sourceBackingOk := sourceBackingOk w;
     targetEnabled := targetEnabled w; targetMedia := targetMedia w;
     gateways := gateways w; logoutRefused := logoutRefused w;
     bridged := bridged w; sourceParts := sourceParts w;
     targetName := targetName w; externalPool := externalPool w ++ r |}.

Definition vcd : VCloudDirectorOperations Cloud := {|
  on_vcdLogin := fun w => (Ok tt, set_session true w);
  on_getOrgUrl := fun orgName w => (Ok ("https://vcd/api/org/" ++ orgName), w);
  on_getProviderVDCId := fun pvdcName w =>
    (Ok ("urn:pvdc:" ++ pvdcName, pvdcName =? "pvdc-t"), w);
  on_getOrgVDCDetails := fun _ orgVDCName _ _ w =>
    (Ok ("urn:vdc:" ++ orgVDCName), w);
  on_getOrgVDCEdgeGateway := fun _ w => (Ok (gateways w), w);
  on_getOrgVDCNetworks := fun _ _ _ w =>
    (Ok [ {| networkId := "urn:net:1"; networkName := "web-v2t" |} ], w);
  on_migrateCatalogItems := fun _ _ _ w => (Ok tt, w);
  on_deleteOrgVDCNetworks := fun _ w => (Ok tt, drop_part "networks" w);
  on_deleteNsxVBackedOrgVDCEdgeGateways := fun _ w =>
    (Ok tt, drop_part "edge gateways" w);
  on_deleteOrgVDC := fun _ w => (Ok tt, drop_part "vdc" w);
  on_renameTargetOrgVDCNetworks := fun _ w => (Ok tt, w);
  on_renameOrgVDC := fun newName _ w => (Ok tt, set_targetName newName w);
  on_updateSourceExternalNetwork := fun _ ipRanges w =>
    (Ok tt, add_pool ipRanges w);
  on_deleteSession := fun w =>
    if logoutRefused w
    then (Raise (mkExn OperationError "Failed to log out current user"), w)
    else (Ok tt, set_session false w);
  orgVDCBackingMatches := fun orgVDCId _ _ w =>
    if orgVDCId =? "urn:vdc:vdc1" then sourceBackingOk w else true;
  orgVDCEnabled := fun _ w => targetEnabled w;
  mediaAttached := fun _ w => targetMedia w
|}.

Definition nsxt : NSXTOperations Cloud := {|
  on_getComputeManagers := fun w => (Ok tt, w);
  on_clearBridging := fun _ w => (Ok tt, set_bridged false w)
|}.

Definition platform : Platform Cloud := {|
  VCloudDirectorOperations_init := fun _ _ _ _ => vcd;
  NSXTOperations_init := fun _ _ _ _ => nsxt
|}.

Definition cleanup : VMwareCloudDirectorNSXMigratorCleanup := {|
  vcdDetails := {|
    Common := {| ipAddress := "10.0.0.1"; username := "admin";
                 password := "secret"; verify := false |};
    Organization := {| OrgName := "acme" |};
    SourceOrgVDC := {| OrgVDCName := "vdc1" |};
    NSXVProviderVDC := {| NSXV_ProviderVDCName := "pvdc-v";
                          ExternalNetwork := "ext-net" |};
    NSXTProviderVDC := {| NSXT_ProviderVDCName := "pvdc-t" |}
  |};
  nsxtDict := {|
    nsxtCommon := {| ipAddress := "10.0.0.2"; username := "admin";
                     password := "secret"; verify := false |}
  |}
|}.

Definition range1 : ipRange :=
  {| startAddress := "192.168.0.10"; endAddress := "192.168.0.20" |}.
Definition range2 : ipRange :=
  {| startAddress := "192.168.1.10"; endAddress := "192.168.1.20" |}.

(** One gateway whose uplink [ext-net] has these subnets. *)
Definition one_gateway (subnets : list subnet) : edgeGatewayPayload :=
  {| values := [ {| edgeGatewayUplinks :=
                      [ {| uplinkName := "other-net"; subnets_values := [] |};
                        {| uplinkName := "ext-net";
                           subnets_values := subnets |} ] |} ] |}.

(** The cloud after a migration, before clean-up: whether the source Org VDC
    matches its provider VDC, whether the target is enabled, whether media is
    attached, whether logging out is refused, and the source edge gateways. *)
Definition make (backingOk enabled media refused : bool)
    (p : edgeGatewayPayload) : Cloud :=
  {| session := false; sourceBackingOk := backingOk; targetEnabled := enabled;
     targetMedia := media; gateways := p; logoutRefused := refused;
     bridged := true; sourceParts := ["networks"; "edge gateways"; "vdc"];
     targetName := "vdc1-t"; externalPool := [] |}.

Definition cloud (p : edgeGatewayPayload) : Cloud :=
  make true true false false p.

Definition healthy : Cloud :=
  cloud (one_gateway [ {| ipRanges_values := [range1] |} ]).

Definition mismatched : Cloud :=
  make false true false false (gateways healthy).

Definition disabled : Cloud :=
  make true false false false (gateways healthy).

Definition with_media : Cloud :=
  make true true true false (gateways healthy).

Definition logout_refused : Cloud :=
  make true true false true (gateways healthy).

(** The source Org VDC has no edge gateway. *)
Definition no_gateway : Cloud := cloud {| values := [] |}.

(** The uplink [ext-net] has an empty first subnet and ranges on its
    second. *)
Definition later_subnet : Cloud :=
  cloud (one_gateway [ {| ipRanges_values := [] |};
                       {| ipRanges_values := [range2] |} ]).

Definition outcome (w : Cloud) : outcome unit := outcome_of platform cleanup w.
Definition trace (w : Cloud) : list event := trace_of platform cleanup w.

End Demo.

(** * Properties of [run] *)

Section Properties.

Variable W : Type.
Variable platform : Platform W.

(** ** Rules for [wp] *)

Lemma wp_final A (m : M W A) Q s : wp m Q s -> Q (fst (m s)) (snd (m s)).
Proof. intros H. apply H. apply surjective_pairing. Qed.

Lemma try_except_reraise A (m : M W A) s :
  try_except m (fun e => raise e) s = m s.
Proof.
  unfold try_except, raise. destruct (m s) as [[a|e] s']; reflexivity.
Qed.

Lemma wp_try_reraise A (m : M W A) Q s :
  wp m Q s -> wp (try_except m (fun e => raise e)) Q s.
Proof. unfold wp. intros H r s'. rewrite try_except_reraise. apply H. Qed.

Lemma wp_bind A B (m : M W A) (f : A -> M W B) Q s :
  wp m (fun r s' => match r with
                    | Ok a => wp (f a) Q s'
                    | Raise e => Q (Raise e) s'
                    end) s ->
  wp (bind m f) Q s.
Proof.
  unfold wp, bind. intros H r s'. destruct (m s) as [[a|e] s1] eqn:E.
  - intros Hf. exact (H _ _ eq_refl _ _ Hf).
  - intros [= <- <-]. exact (H _ _ eq_refl).
Qed.

Lemma wp_invoke R c (inj : R -> value) (h : W -> outcome R * W) Q s :
  (forall o w', h (remote s) = (o, w') ->
     Q o {| remote := w';
            events := events s ++ [(c, outcome_map inj o)];
            console := console s |}) ->
  wp (invoke c inj h) Q s.
Proof.
  unfold wp, invoke. intros H r s'. destruct (h (remote s)) as [o w'] eqn:E.
  intros [= <- <-]. apply H. reflexivity.
Qed.

Lemma wp_log lvl msg (Q : outcome unit -> state W -> Prop) s :
  Q (Ok tt) {| remote := remote s; events := events s;
               console := console s ++ [(lvl, msg)] |} ->
  wp (log lvl msg) Q s.
Proof. unfold wp, log. intros H r s' [= <- <-]. exact H. Qed.

Lemma wp_ret A (a : A) Q (s : state W) : Q (Ok a) s -> wp (ret a) Q s.
Proof. unfold wp, ret. intros H r s' [= <- <-]. exact H. Qed.

Lemma wp_raise A e (Q : outcome A -> state W -> Prop) s :
  Q (Raise e) s -> wp (raise e) Q s.
Proof. unfold wp, raise. intros H r s' [= <- <-]. exact H. Qed.

Lemma wp_getitem A (l : list A) i Q (s : state W) :
  match nth_error l i with
  | Some x => Q (Ok x) s
  | None => Q (Raise (mkExn IndexError "list index out of range")) s
  end ->
  wp (getitem l i) Q s.
Proof.
  unfold getitem. destruct (nth_error l i); [apply wp_ret | apply wp_raise].
Qed.

(** Every property of the result of [run] and of the state it ends in can
    be shown by walking through [run]. *)
Lemma run_wp self w (Q : outcome unit -> state W -> Prop) :
  wp (run platform self) Q (initial w) ->
  Q (outcome_of platform self w) (final_of platform self w).
Proof. apply wp_final. Qed.

(** ** Walking through [run] *)

Ltac wp_simpl := cbn [remote events console app outcome_map fst snd initial].

(* A client call: use what is known of the remote answer, or take cases. *)
Ltac wp_call :=
  apply wp_invoke; wp_simpl;
  let o := fresh "o" in
  let w' := fresh "w" in
  let Hc := fresh "Hcall" in
  intros o w' Hc;
  try rewrite Bool.andb_true_r in Hc;
  first
    [ match goal with
      | H : ?lhs = (_, _) |- _ =>
          match type of Hc with lhs = _ => rewrite H in Hc end;
          injection Hc as <- <-
      end
    | match type of Hc with
      | (if ?b then _ else _) = _ =>
          match goal with
          | H : b = _ |- _ => rewrite H in Hc; injection Hc as <- <-
          end
      end
    | match type of Hc with
      | (if ?b then _ else _) = _ =>
          let Hb := fresh "Hgate" in
          destruct b eqn:Hb; injection Hc as <- <-
      end
    | destruct o as [?|?] ];
  wp_simpl.

Ltac head_of m :=
  lazymatch m with
  | ?f _ => head_of f
  | _ => m
  end.

Ltac wp_step :=
  lazymatch goal with
  | |- wp (try_except _ _) _ _ => apply wp_try_reraise
  | |- wp (bind _ _) _ _ => apply wp_bind
  | |- wp (info _) _ _ => apply wp_log; wp_simpl
  | |- wp (debug _) _ _ => apply wp_log; wp_simpl
  | |- wp (log _ _) _ _ => apply wp_log; wp_simpl
  | |- wp (ret _) _ _ => apply wp_ret
  | |- wp (getitem (_ :: _) _) _ _ => apply wp_getitem; cbn [nth_error]
  | |- wp (getitem [] _) _ _ => apply wp_getitem; cbn [nth_error]
  | |- wp (getitem ?l _) _ _ =>
      first [ match goal with H : l = _ |- _ => rewrite H end
            | destruct l eqn:? ]
  | |- wp (invoke _ _ _) _ _ => wp_call
  | |- wp (match ?x with pair _ _ => _ end) _ _ => destruct x
  | |- wp (if truthy (_ :: _) then _ else _) _ _ => cbn [truthy]
  | |- wp (if truthy [] then _ else _) _ _ => cbn [truthy]
  | |- wp (if truthy ?l then _ else _) _ _ =>
      first [ match goal with H : l = _ |- _ => rewrite H end
            | destruct l eqn:? ]
  | |- wp ?m _ _ => let h := head_of m in unfold h
  end.

Ltac wp_run :=
  lazymatch goal with
  | |- context [final_of ?P ?self ?w] =>
      pattern (outcome_of P self w), (final_of P self w); apply run_wp
  end;
  unfold run; cbv zeta; repeat wp_step; cbv beta; wp_simpl.

(* Turn a scenario hypothesis into the equations of its steps. *)
Ltac scenario H :=
  unfold networks_listed, target_validated, source_resolved in H;
  cbv zeta in H;
  repeat
    (match type of H with
     | context [match ?x with pair _ _ => _ end] => destruct x eqn:?
     | context [match ?x with Ok _ => _ | Raise _ => _ end] => destruct x
     | context [if ?b then _ else _] => destruct b eqn:?
     end; try discriminate H);
  injection H as ? ?; subst.


(** ** Lists of events *)

Lemma all_returned_app l1 l2 :
  all_returned (l1 ++ l2)%list = all_returned l1 && all_returned l2.
Proof. apply forallb_app. Qed.

(** In a record where every call but the last returned, a call that raised
    is the last one. *)
Lemma raise_is_last (l pre post : list event) c e :
  all_returned (removelast l) = true ->
  l = (pre ++ (c, Raise e) :: post)%list ->
  post = [] /\ l = (pre ++ [(c, Raise e)])%list.
Proof.
  intros Hall ->. destruct post as [|x post]; [split; reflexivity|].
  exfalso.
  rewrite removelast_app in Hall by discriminate.
  rewrite all_returned_app in Hall.
  apply andb_true_iff in Hall as [_ Hall].
  cbn in Hall. discriminate Hall.
Qed.

(* The last event of a concrete record that is split at a raise. *)
Ltac last_event H :=
  apply raise_is_last in H; [|reflexivity];
  destruct H as [-> H];
  match type of H with
  | ?l = _ =>
      change l with (removelast l ++ [last l (VcdLogin, Ok VNone)])%list in H;
      cbn [removelast last] in H;
      apply app_inj_tail in H; destruct H as [_ H]
  end.

(** ** The validation gates *)

(** C1: in every configuration where the source Org VDC resolves and its
    backing does not match the backing of the source provider VDC, [run]
    fails with a [ValidationError], and none of the calls made up to the
    failure is a mutation (catalog relocation, removal of bridging, a
    deletion, a rename, the IP-pool update). *)
Theorem source_backing_mismatch_aborts self w0
    orgUrl sourceProviderVDCId isNSXTbacked sourceOrgVDCId w :
  source_resolved platform self w0
    = Some (orgUrl, sourceProviderVDCId, isNSXTbacked, sourceOrgVDCId, w) ->
  orgVDCBackingMatches (vcdObj_of platform self) sourceOrgVDCId
                       sourceProviderVDCId isNSXTbacked w = false ->
  exists e,
    outcome_of platform self w0 = Raise e /\
    exn_kind e = ValidationError /\
    existsb is_mutation (map fst (trace_of platform self w0)) = false.
Proof.
  intros Hs Hm. scenario Hs. unfold trace_of.
  wp_run.
  eexists. repeat split; reflexivity.
Qed.

(** C3: in every configuration where the target Org VDC is reached by the
    enabled-check and is disabled, [run] fails with a [ValidationError] and
    no call deleting networks, edge gateways or the source Org VDC is made
    (nor any other mutation). *)
Theorem disabled_target_aborts self w0 targetOrgVDCId w :
  target_validated platform self w0 = Some (targetOrgVDCId, w) ->
  orgVDCEnabled (vcdObj_of platform self) targetOrgVDCId w = false ->
  exists e,
    outcome_of platform self w0 = Raise e /\
    exn_kind e = ValidationError /\
    existsb is_deletion (map fst (trace_of platform self w0)) = false /\
    existsb is_mutation (map fst (trace_of platform self w0)) = false.
Proof.
  intros Hs Hd. scenario Hs. unfold trace_of.
  wp_run.
  eexists. repeat split; reflexivity.
Qed.

(** C4: in every configuration where some VM of the target Org VDC has media
    attached when the media check is reached, [run] fails with a
    [ValidationError], and neither [migrateCatalogItems] nor [clearBridging]
    has been called. *)
Theorem attached_media_aborts self w0 targetOrgVDCId w :
  networks_listed platform self w0 = Some (targetOrgVDCId, w) ->
  mediaAttached (vcdObj_of platform self) targetOrgVDCId w = true ->
  exists e,
    outcome_of platform self w0 = Raise e /\
    exn_kind e = ValidationError /\
    called m_migrateCatalogItems (trace_of platform self w0) = false /\
    called m_clearBridging (trace_of platform self w0) = false.
Proof.
  intros Hs Hd. scenario Hs. unfold trace_of.
  wp_run.
  eexists. repeat split; reflexivity.
Qed.

(** ** Order of the destructive steps *)

(** C2: in every successful run, [clearBridging], [deleteOrgVDCNetworks],
    [deleteNsxVBackedOrgVDCEdgeGateways] and [deleteOrgVDC] are each called
    exactly once, in this order. *)
Theorem destructive_steps_in_order self w :
  outcome_of platform self w = Ok tt ->
  let l := map (fun ev => method_of (fst ev)) (trace_of platform self w) in
  strictly_before m_clearBridging m_deleteOrgVDCNetworks l = true /\
  strictly_before m_deleteOrgVDCNetworks
                  m_deleteNsxVBackedOrgVDCEdgeGateways l = true /\
  strictly_before m_deleteNsxVBackedOrgVDCEdgeGateways m_deleteOrgVDC l = true.
Proof.
  unfold trace_of.
  wp_run; intros Hok; try discriminate Hok; repeat split; reflexivity.
Qed.

(** ** Errors *)

(** C7: when a call of [run] fails with an error, [run] ends with exactly
    that error, and the failed call is the last one made: nothing is
    retried, recovered or rolled back after it. *)
Theorem error_propagates_unchanged self w pre c e post :
  trace_of platform self w = (pre ++ (c, Raise e) :: post)%list ->
  outcome_of platform self w = Raise e /\ post = [].
Proof.
  unfold trace_of. revert pre c e post.
  wp_run; intros pre' c' e' post' H.
  all: last_event H.
  all: try discriminate H.
  all: injection H as <- <-; split; reflexivity.
Qed.

(** [run] raises nothing of its own but the [IndexError] of an empty list:
    any other error is the one its last call raised. *)
Lemma run_raises_what_failed self w e :
  outcome_of platform self w = Raise e ->
  (exists pre c, trace_of platform self w = (pre ++ [(c, Raise e)])%list) \/
  (e = mkExn IndexError "list index out of range" /\
   all_returned (trace_of platform self w) = true).
Proof.
  unfold trace_of. revert e.
  wp_run; intros e' H; try discriminate H; injection H as <-.
  all: first
         [ right; split; reflexivity
         | left;
           match goal with
           | |- exists pre c, ?l = _ =>
               exists (removelast l); cbn [removelast];
               eexists; reflexivity
           end ].
Qed.

(** C6, as the code has it: a failure of [deleteSession] is not absorbed.
    When the logout call raises [e], every call before it has returned (the
    renames included) and [run] ends with [e]. *)
Theorem logout_failure_propagates self w e :
  raised_by m_deleteSession (trace_of platform self w) = Some e ->
  outcome_of platform self w = Raise e /\
  all_returned (removelast (trace_of platform self w)) = true /\
  returned m_renameOrgVDC (trace_of platform self w) = true.
Proof.
  unfold trace_of. revert e.
  wp_run; intros e' H; cbn in H; try discriminate H.
  all: injection H as <-; repeat split; reflexivity.
Qed.

(** ** Names *)

(** In no run, failed or not, is the target Org VDC looked up under another
    name than [N ++ "-t"], with [N] the configured name of the source Org VDC,
    or an Org VDC renamed to another name than [N], or another Org VDC renamed
    than the one that lookup returned. *)
Lemma target_resolved_under_marker self w :
  let N := OrgVDCName (SourceOrgVDC (vcdDetails self)) in
  let trace := trace_of platform self w in
  (forall name o,
     In (name, o) (resolutions "targetOrgVDC" trace) -> name = N ++ "-t") /\
  (forall newName orgVDCId,
     In (newName, orgVDCId) (rename_calls (map fst trace)) ->
     newName = N /\
     resolutions "targetOrgVDC" trace = [(N ++ "-t", Ok (VStr orgVDCId))]) /\
  (outcome_of platform self w = Ok tt ->
   exists targetOrgVDCId,
     resolutions "targetOrgVDC" trace
     = [(N ++ "-t", Ok (VStr targetOrgVDCId))] /\
     rename_calls (map fst trace) = [(N, targetOrgVDCId)]).
Proof.
  unfold trace_of. cbv zeta.
  wp_run.
  all: cbn [resolutions rename_calls map fst String.eqb Ascii.eqb Bool.eqb In].
  all: split; [ intros name o Hin
              | split; [ intros newName orgVDCId Hin | intros Hok ] ].
  all: try contradiction; try discriminate Hok.
  all: try (destruct Hin as [[= <- <-] | []]; try split; reflexivity).
  all: eexists; split; reflexivity.
Qed.

(** C8: with [N] the configured name of the source Org VDC, a run that gets
    past the lookup of the target provider VDC looks the target Org VDC up
    exactly once, under [N ++ "-t"]; and once the target networks are renamed
    it calls [renameOrgVDC] exactly once, renaming to exactly [N] the Org VDC
    that this lookup returned. *)
Theorem target_resolved_and_renamed_back self w :
  count_returned m_getProviderVDCId (trace_of platform self w) = 2 ->
  let N := OrgVDCName (SourceOrgVDC (vcdDetails self)) in
  exists o,
    resolutions "targetOrgVDC" (trace_of platform self w) = [(N ++ "-t", o)] /\
    (returned m_renameTargetOrgVDCNetworks (trace_of platform self w) = true ->
     exists targetOrgVDCId,
       o = Ok (VStr targetOrgVDCId) /\
       rename_calls (map fst (trace_of platform self w))
       = [(N, targetOrgVDCId)]).
Proof.
  unfold trace_of. cbv zeta.
  wp_run; intros Hreach; cbn in Hreach; try discriminate Hreach.
  all: eexists; split; [reflexivity|].
  all: intros Hren; cbn in Hren; try discriminate Hren.
  all: eexists; split; reflexivity.
Qed.

(** ** Reconciliation of the IP pool *)


(** C10: whatever the captured payload holds, an
    [updateSourceExternalNetwork] call passes the IP ranges of the first
    subnet of the first matching uplink of the first gateway, and is made
    only when these are not empty; when the first gateway has no matching
    uplink, or the first subnet of its first matching uplink has no range,
    no update is made, whatever the later gateways, uplinks and subnets
    hold. *)
Theorem reconciliation_reads_first_subnet_only self w p :
  captured_payload (trace_of platform self w) = Some p ->
  let name := ExternalNetwork (NSXVProviderVDC (vcdDetails self)) in
  let matching g :=
    filter (fun uplink => uplinkName uplink =? name) (edgeGatewayUplinks g) in
  let updates := update_calls (map fst (trace_of platform self w)) in
  (updates = [] \/
   exists g gs u us sn sns,
     values p = g :: gs /\ matching g = u :: us /\
     subnets_values u = sn :: sns /\ ipRanges_values sn <> [] /\
     updates = [(name, ipRanges_values sn)]) /\
  (forall g gs,
     values p = g :: gs ->
     (matching g = [] \/
      exists u us sn sns,
        matching g = u :: us /\ subnets_values u = sn :: sns /\
        ipRanges_values sn = []) ->
     updates = []).
Proof.
  unfold trace_of. cbv zeta. revert p.
  wp_run; intros p' Hcap; cbn in Hcap; try discriminate Hcap.
  all: injection Hcap as <-.
  all: split;
    [ first [ left; reflexivity
            | right; do 6 eexists; repeat split; eauto; congruence ]
    | intros g' gs' Hv [Hf | (u' & us' & sn' & sns' & Hf & Hs & Hr)];
      first [ reflexivity | exfalso; congruence ] ].
Qed.

(** C5, as the code has it: when the captured payload has a first gateway
    and the renames have returned, [run] looks at the uplinks of that gateway
    only.  If none matches the configured external network, or the first
    subnet of the first match has no IP range, no
    [updateSourceExternalNetwork] call is made and [run] goes on to
    [deleteSession], succeeding when it returns; if the first subnet of the
    first match has IP ranges, [updateSourceExternalNetwork] is called exactly
    once, with exactly these ranges. *)
Theorem reconciliation_on_first_gateway self w p g gs :
  captured_payload (trace_of platform self w) = Some p ->
  returned m_renameOrgVDC (trace_of platform self w) = true ->
  values p = g :: gs ->
  let name := ExternalNetwork (NSXVProviderVDC (vcdDetails self)) in
  let matching :=
    filter (fun uplink => uplinkName uplink =? name) (edgeGatewayUplinks g) in
  let updates := update_calls (map fst (trace_of platform self w)) in
  let skipped :=
    updates = [] /\
    called m_deleteSession (trace_of platform self w) = true /\
    (returned m_deleteSession (trace_of platform self w) = true ->
     outcome_of platform self w = Ok tt) in
  (matching = [] -> skipped) /\
  (forall u us sn sns,
     matching = u :: us -> subnets_values u = sn :: sns ->
     (ipRanges_values sn = [] -> skipped) /\
     (ipRanges_values sn <> [] -> updates = [(name, ipRanges_values sn)])).
Proof.
  unfold trace_of. cbv zeta. revert p g gs.
  wp_run; intros p' g' gs' Hcap Hret Hv; cbn in Hcap, Hret;
    try discriminate Hret.
  all: injection Hcap as <-.
  all: try congruence.
  all: split;
    [ intros Hm
    | intros u' us' sn' sns' Hm Hs; split; intros Hr ].
  all: try (exfalso; congruence).
  all: repeat match goal with x : unit |- _ => destruct x end.
  all: repeat split; try reflexivity; try (intros _; reflexivity).
  all: cbn; congruence.
Qed.

(** ** More on what [run] calls, and with what *)

(** X1: a run that returns has called, each call returning, the twenty
    steps up to [renameOrgVDC] in the order of the source, then possibly
    [updateSourceExternalNetwork], then [deleteSession], and nothing else. *)
Theorem successful_run_steps self w :
  outcome_of platform self w = Ok tt ->
  let l := map (fun ev => method_of (fst ev)) (trace_of platform self w) in
  all_returned (trace_of platform self w) = true /\
  (l = (steps_to_rename ++ [m_deleteSession])%list \/
   l = (steps_to_rename
        ++ [m_updateSourceExternalNetwork; m_deleteSession])%list).
Proof.
  unfold trace_of.
  wp_run; intros Hok; try discriminate Hok.
  all: split; [reflexivity|].
  all: first [left; reflexivity | right; reflexivity].
Qed.

(** X2: whatever the remote systems answer, the calls of a run are an
    initial part of that same sequence, and every call but the last one has
    returned: no step is skipped, repeated or reordered, and nothing is called
    after a failure. *)
Theorem every_run_is_a_prefix self w :
  let l := map (fun ev => method_of (fst ev)) (trace_of platform self w) in
  all_returned (removelast (trace_of platform self w)) = true /\
  is_prefix l (steps_to_rename
               ++ [m_updateSourceExternalNetwork; m_deleteSession])%list
  || is_prefix l (steps_to_rename ++ [m_deleteSession])%list = true.
Proof.
  unfold trace_of.
  wp_run; split; reflexivity.
Qed.

Ltac all_in H :=
  cbn in H;
  repeat (destruct H as [<- | H]; [reflexivity|]);
  contradiction.

(** X3: the edge-gateway read, the catalog relocation (as its source) and
    the three deletions are only ever applied to the id that the lookup of
    the configured source Org VDC name returned. *)
Theorem source_side_calls_get_source_id self w orgVDCId :
  In orgVDCId (source_side_ids (map fst (trace_of platform self w))) ->
  resolutions "sourceOrgVDC" (trace_of platform self w)
  = [(OrgVDCName (SourceOrgVDC (vcdDetails self)), Ok (VStr orgVDCId))].
Proof.
  unfold trace_of. revert orgVDCId.
  wp_run; intros id' Hin; all_in Hin.
Qed.

(** X4: the enabled check, the network listing, the media check, the catalog
    relocation (as its target) and the two renames are only ever applied to
    the id that the lookup of the source name suffixed with [-t] returned. *)
Theorem target_side_calls_get_target_id self w orgVDCId :
  In orgVDCId (target_side_ids (map fst (trace_of platform self w))) ->
  resolutions "targetOrgVDC" (trace_of platform self w)
  = [(OrgVDCName (SourceOrgVDC (vcdDetails self)) ++ "-t",
      Ok (VStr orgVDCId))].
Proof.
  unfold trace_of. revert orgVDCId.
  wp_run; intros id' Hin; all_in Hin.
Qed.

(** X5: the organization handle passed to [getOrgVDCDetails] and to
    [migrateCatalogItems] is the one [getOrgUrl] returned for the configured
    organization name. *)
Theorem org_handle_is_the_resolved_one self w orgUrl :
  In orgUrl (org_urls_used (map fst (trace_of platform self w))) ->
  org_lookups (trace_of platform self w)
  = [(OrgName (Organization (vcdDetails self)), Ok (VStr orgUrl))].
Proof.
  unfold trace_of. revert orgUrl.
  wp_run; intros u' Hin; all_in Hin.
Qed.

(** X6: [clearBridging] is only ever called with the list that
    [getOrgVDCNetworks] returned for the target Org VDC, asked under the
    label [targetOrgVDCNetworks] without saving the response. *)
Theorem bridging_cleared_for_listed_networks self w nets :
  In nets (bridging_calls (map fst (trace_of platform self w))) ->
  exists targetOrgVDCId,
    resolutions "targetOrgVDC" (trace_of platform self w)
    = [(OrgVDCName (SourceOrgVDC (vcdDetails self)) ++ "-t",
        Ok (VStr targetOrgVDCId))] /\
    network_listings (trace_of platform self w)
    = [(targetOrgVDCId, "targetOrgVDCNetworks", false, Ok (VNetworks nets))].
Proof.
  unfold trace_of. revert nets.
  wp_run; intros n' Hin; cbn in Hin; try contradiction.
  all: destruct Hin as [<- | []]; eexists; split; reflexivity.
Qed.

(** X7: there are at most two backing validations.  The first checks the
    source Org VDC against the id and backing flag returned by the lookup of
    the NSX-V provider VDC; the second checks the target Org VDC against the
    id and flag returned by the lookup of the NSX-T provider VDC (the flag is
    rebound at line 86), never against those of the source side. *)
Theorem backing_validated_against_own_provider self w :
  let N := OrgVDCName (SourceOrgVDC (vcdDetails self)) in
  let V := NSXV_ProviderVDCName (NSXVProviderVDC (vcdDetails self)) in
  let T := NSXT_ProviderVDCName (NSXTProviderVDC (vcdDetails self)) in
  let trace := trace_of platform self w in
  match backing_validations (map fst trace) with
  | [] => True
  | [(sourceOrgVDCId, sourceProviderVDCId, sourceFlag)] =>
      resolutions "sourceOrgVDC" trace = [(N, Ok (VStr sourceOrgVDCId))] /\
      exists rest,
        provider_lookups trace
        = (V, Ok (VPvdc sourceProviderVDCId sourceFlag)) :: rest
  | [(sourceOrgVDCId, sourceProviderVDCId, sourceFlag);
     (targetOrgVDCId, targetProviderVDCId, targetFlag)] =>
      resolutions "sourceOrgVDC" trace = [(N, Ok (VStr sourceOrgVDCId))] /\
      resolutions "targetOrgVDC" trace
      = [(N ++ "-t", Ok (VStr targetOrgVDCId))] /\
      provider_lookups trace
      = [(V, Ok (VPvdc sourceProviderVDCId sourceFlag));
         (T, Ok (VPvdc targetProviderVDCId targetFlag))]
  | _ => False
  end.
Proof.
  unfold trace_of. cbv zeta.
  wp_run; cbn; repeat split; try reflexivity; eexists; reflexivity.
Qed.

(** X8: when a run has issued any mutating call, both backing validations,
    the enabled check and the media check have returned; when it has issued a
    deletion, the catalog relocation and the removal of bridging have
    returned as well. *)
Theorem mutations_only_after_the_gates self w :
  existsb is_mutation (map fst (trace_of platform self w)) = true ->
  count_returned m_validateOrgVDCNSXbacking (trace_of platform self w) = 2 /\
  returned m_validateTargetOrgVDCState (trace_of platform self w) = true /\
  returned m_validateVappVMsMediaState (trace_of platform self w) = true /\
  (existsb is_deletion (map fst (trace_of platform self w)) = true ->
   returned m_migrateCatalogItems (trace_of platform self w) = true /\
   returned m_clearBridging (trace_of platform self w) = true).
Proof.
  unfold trace_of.
  wp_run; intros H; cbn in H; try discriminate H.
  all: split; [reflexivity|]; split; [reflexivity|]; split; [reflexivity|].
  all: intros Hd; cbn in Hd; try discriminate Hd; split; reflexivity.
Qed.

(** X9: the console line [Successfully cleaned up Source Org VDC.] is
    logged exactly in the runs that go on to call [deleteSession]: it is
    logged before the logout, also when the logout then fails, and never when
    an earlier step or the reconciliation fails. *)
Theorem success_message_iff_logout_attempted self w :
  logged INFO "Successfully cleaned up Source Org VDC."
         (console (final_of platform self w))
  = called m_deleteSession (trace_of platform self w).
Proof.
  unfold trace_of.
  wp_run; reflexivity.
Qed.

(** X10: [run] returns exactly when [deleteSession] has returned; a run that
    fails anywhere never deletes the session it opened. *)
Theorem succeeds_iff_logged_out self w :
  returned m_deleteSession (trace_of platform self w)
  = is_ok (outcome_of platform self w).
Proof.
  unfold trace_of.
  wp_run; reflexivity.
Qed.

End Properties.

(** * The properties on the small cloud *)

Lemma source_backing_mismatch_aborts_witness :
  source_resolved Demo.platform Demo.cleanup Demo.mismatched
  = Some ("https://vcd/api/org/acme", "urn:pvdc:pvdc-v", false,
          "urn:vdc:vdc1", Demo.set_session true Demo.mismatched) /\
  exists e,
    Demo.outcome Demo.mismatched = Raise e /\
    exn_kind e = ValidationError /\
    existsb is_mutation (map fst (Demo.trace Demo.mismatched)) = false.
Proof.
  split; [reflexivity|].
  apply (@source_backing_mismatch_aborts _ Demo.platform Demo.cleanup
           Demo.mismatched "https://vcd/api/org/acme" "urn:pvdc:pvdc-v" false
           "urn:vdc:vdc1" (Demo.set_session true Demo.mismatched));
    reflexivity.
Defined.

Lemma destructive_steps_in_order_witness :
  Demo.outcome Demo.healthy = Ok tt /\
  let l := map (fun ev => method_of (fst ev)) (Demo.trace Demo.healthy) in
  strictly_before m_clearBridging m_deleteOrgVDCNetworks l = true /\
  strictly_before m_deleteOrgVDCNetworks
                  m_deleteNsxVBackedOrgVDCEdgeGateways l = true /\
  strictly_before m_deleteNsxVBackedOrgVDCEdgeGateways m_deleteOrgVDC l = true.
Proof.
  split; [reflexivity|].
  apply (@destructive_steps_in_order _ Demo.platform Demo.cleanup Demo.healthy).
  reflexivity.
Defined.

Lemma disabled_target_aborts_witness :
  target_validated Demo.platform Demo.cleanup Demo.disabled
  = Some ("urn:vdc:vdc1-t", Demo.set_session true Demo.disabled) /\
  exists e,
    Demo.outcome Demo.disabled = Raise e /\
    exn_kind e = ValidationError /\
    existsb is_deletion (map fst (Demo.trace Demo.disabled)) = false /\
    existsb is_mutation (map fst (Demo.trace Demo.disabled)) = false.
Proof.
  split; [reflexivity|].
  apply (@disabled_target_aborts _ Demo.platform Demo.cleanup Demo.disabled
           "urn:vdc:vdc1-t" (Demo.set_session true Demo.disabled));
    reflexivity.
Defined.

Lemma attached_media_aborts_witness :
  networks_listed Demo.platform Demo.cleanup Demo.with_media
  = Some ("urn:vdc:vdc1-t", Demo.set_session true Demo.with_media) /\
  exists e,
    Demo.outcome Demo.with_media = Raise e /\
    exn_kind e = ValidationError /\
    called m_migrateCatalogItems (Demo.trace Demo.with_media) = false /\
    called m_clearBridging (Demo.trace Demo.with_media) = false.
Proof.
  split; [reflexivity|].
  apply (@attached_media_aborts _ Demo.platform Demo.cleanup Demo.with_media
           "urn:vdc:vdc1-t" (Demo.set_session true Demo.with_media));
    reflexivity.
Defined.

Lemma error_propagates_unchanged_witness :
  Demo.trace Demo.disabled
  = (removelast (Demo.trace Demo.disabled)
     ++ [(ValidateTargetOrgVDCState "urn:vdc:vdc1-t",
          Raise (mkExn ValidationError "Org VDC is disabled"))])%list /\
  Demo.outcome Demo.disabled
  = Raise (mkExn ValidationError "Org VDC is disabled") /\
  @nil event = [].
Proof.
  split; [reflexivity|].
  apply (@error_propagates_unchanged _ Demo.platform Demo.cleanup Demo.disabled
           (removelast (Demo.trace Demo.disabled))
           (ValidateTargetOrgVDCState "urn:vdc:vdc1-t")
           (mkExn ValidationError "Org VDC is disabled") []).
  reflexivity.
Defined.

Lemma logout_failure_propagates_witness :
  Demo.outcome Demo.logout_refused
  = Raise (mkExn OperationError "Failed to log out current user") /\
  all_returned (removelast (Demo.trace Demo.logout_refused)) = true /\
  returned m_renameOrgVDC (Demo.trace Demo.logout_refused) = true.
Proof.
  apply (@logout_failure_propagates _ Demo.platform Demo.cleanup
           Demo.logout_refused).
  reflexivity.
Defined.

(** C6 as stated fails: every step before the logout has returned, the
    logout call raises, and [run] does not complete successfully. *)
Lemma logout_failure_counterexample :
  all_returned (removelast (Demo.trace Demo.logout_refused)) = true /\
  raised_by m_deleteSession (Demo.trace Demo.logout_refused)
  = Some (mkExn OperationError "Failed to log out current user") /\
  Demo.outcome Demo.logout_refused <> Ok tt.
Proof.
  split; [reflexivity|]. split; [reflexivity|].
  intros H. vm_compute in H. discriminate H.
Qed.

Lemma target_resolved_and_renamed_back_witness :
  count_returned m_getProviderVDCId (Demo.trace Demo.healthy) = 2 /\
  returned m_renameTargetOrgVDCNetworks (Demo.trace Demo.healthy) = true /\
  Demo.outcome Demo.healthy = Ok tt /\
  exists targetOrgVDCId,
    resolutions "targetOrgVDC" (Demo.trace Demo.healthy)
    = [("vdc1-t", Ok (VStr targetOrgVDCId))] /\
    rename_calls (map fst (Demo.trace Demo.healthy))
    = [("vdc1", targetOrgVDCId)].
Proof.
  split; [reflexivity|]. split; [reflexivity|]. split; [reflexivity|].
  destruct (@target_resolved_and_renamed_back _ Demo.platform Demo.cleanup
              Demo.healthy) as (o & Hlookup & Hrename); [reflexivity|].
  destruct Hrename as (targetOrgVDCId & -> & Hcall); [reflexivity|].
  exists targetOrgVDCId. split; [exact Hlookup | exact Hcall].
Defined.


Lemma reconciliation_reads_first_subnet_only_witness :
  captured_payload (Demo.trace Demo.later_subnet)
  = Some (Demo.gateways Demo.later_subnet) /\
  Demo.outcome Demo.later_subnet = Ok tt /\
  update_calls (map fst (Demo.trace Demo.later_subnet)) = [].
Proof.
  split; [reflexivity|]. split; [reflexivity|].
  eapply (@reconciliation_reads_first_subnet_only _ Demo.platform Demo.cleanup
            Demo.later_subnet (Demo.gateways Demo.later_subnet)).
  - reflexivity.
  - reflexivity.
  - right. do 4 eexists. repeat split; reflexivity.
Defined.

Lemma reconciliation_on_first_gateway_witness :
  captured_payload (Demo.trace Demo.healthy)
  = Some (Demo.gateways Demo.healthy) /\
  returned m_renameOrgVDC (Demo.trace Demo.healthy) = true /\
  update_calls (map fst (Demo.trace Demo.healthy))
  = [("ext-net", [Demo.range1])].
Proof.
  split; [reflexivity|]. split; [reflexivity|].
  edestruct (@reconciliation_on_first_gateway _ Demo.platform Demo.cleanup
               Demo.healthy (Demo.gateways Demo.healthy)) as [_ H];
    [reflexivity | reflexivity | reflexivity |].
  edestruct H as [_ H']; [reflexivity | reflexivity |].
  apply H'. discriminate.
Defined.

(** C5 as stated fails twice.  With no edge gateway the configured name
    matches no uplink, yet [run] fails after the renames; and an uplink that
    matches and carries [range2] on its second subnet gets no update. *)
Lemma reconciliation_as_claimed_counterexample :
  ((forall g u,
      In g (values (Demo.gateways Demo.no_gateway)) ->
      In u (edgeGatewayUplinks g) -> uplinkName u <> "ext-net") /\
   returned m_renameOrgVDC (Demo.trace Demo.no_gateway) = true /\
   Demo.outcome Demo.no_gateway
   = Raise (mkExn IndexError "list index out of range")) /\
  ((exists g u,
      In g (values (Demo.gateways Demo.later_subnet)) /\
      In u (edgeGatewayUplinks g) /\ uplinkName u = "ext-net" /\
      In Demo.range2 (flat_map ipRanges_values (subnets_values u))) /\
   Demo.outcome Demo.later_subnet = Ok tt /\
   update_calls (map fst (Demo.trace Demo.later_subnet)) = []).
Proof.
  split.
  - split; [intros g u []|]. split; reflexivity.
  - split; [|split; reflexivity].
    vm_compute. eexists; eexists.
    split; [left; reflexivity|].
    split; [right; left; reflexivity|].
    split; [reflexivity|]. left. reflexivity.
Qed.

(** * The further properties on the small cloud *)

Lemma successful_run_steps_witness :
  Demo.outcome Demo.healthy = Ok tt /\
  all_returned (Demo.trace Demo.healthy) = true /\
  map (fun ev => method_of (fst ev)) (Demo.trace Demo.healthy)
  = (steps_to_rename
     ++ [m_updateSourceExternalNetwork; m_deleteSession])%list.
Proof.
  split; [reflexivity|].
  destruct (@successful_run_steps _ Demo.platform Demo.cleanup Demo.healthy)
    as [Hall _]; [reflexivity|].
  split; [exact Hall | reflexivity].
Defined.

Lemma source_side_calls_get_source_id_witness :
  In "urn:vdc:vdc1" (source_side_ids (map fst (Demo.trace Demo.healthy))) /\
  resolutions "sourceOrgVDC" (Demo.trace Demo.healthy)
  = [("vdc1", Ok (VStr "urn:vdc:vdc1"))].
Proof.
  assert (H : In "urn:vdc:vdc1"
                 (source_side_ids (map fst (Demo.trace Demo.healthy))))
    by (vm_compute; left; reflexivity).
  split; [exact H|].
  apply (@source_side_calls_get_source_id _ Demo.platform Demo.cleanup
           Demo.healthy "urn:vdc:vdc1" H).
Defined.

Lemma target_side_calls_get_target_id_witness :
  In "urn:vdc:vdc1-t" (target_side_ids (map fst (Demo.trace Demo.healthy))) /\
  resolutions "targetOrgVDC" (Demo.trace Demo.healthy)
  = [("vdc1-t", Ok (VStr "urn:vdc:vdc1-t"))].
Proof.
  assert (H : In "urn:vdc:vdc1-t"
                 (target_side_ids (map fst (Demo.trace Demo.healthy))))
    by (vm_compute; left; reflexivity).
  split; [exact H|].
  apply (@target_side_calls_get_target_id _ Demo.platform Demo.cleanup
           Demo.healthy "urn:vdc:vdc1-t" H).
Defined.

Lemma org_handle_is_the_resolved_one_witness :
  In "https://vcd/api/org/acme"
     (org_urls_used (map fst (Demo.trace Demo.healthy))) /\
  org_lookups (Demo.trace Demo.healthy)
  = [("acme", Ok (VStr "https://vcd/api/org/acme"))].
Proof.
  assert (H : In "https://vcd/api/org/acme"
                 (org_urls_used (map fst (Demo.trace Demo.healthy))))
    by (vm_compute; left; reflexivity).
  split; [exact H|].
  apply (@org_handle_is_the_resolved_one _ Demo.platform Demo.cleanup
           Demo.healthy "https://vcd/api/org/acme" H).
Defined.

Lemma bridging_cleared_for_listed_networks_witness :
  let nets := [ {| networkId := "urn:net:1"; networkName := "web-v2t" |} ] in
  In nets (bridging_calls (map fst (Demo.trace Demo.healthy))) /\
  exists targetOrgVDCId,
    resolutions "targetOrgVDC" (Demo.trace Demo.healthy)
    = [("vdc1-t", Ok (VStr targetOrgVDCId))] /\
    network_listings (Demo.trace Demo.healthy)
    = [(targetOrgVDCId, "targetOrgVDCNetworks", false, Ok (VNetworks nets))].
Proof.
  intros nets.
  assert (H : In nets (bridging_calls (map fst (Demo.trace Demo.healthy))))
    by (vm_compute; left; reflexivity).
  split; [exact H|].
  apply (@bridging_cleared_for_listed_networks _ Demo.platform Demo.cleanup
           Demo.healthy nets H).
Defined.

Lemma mutations_only_after_the_gates_witness :
  existsb is_mutation (map fst (Demo.trace Demo.healthy)) = true /\
  count_returned m_validateOrgVDCNSXbacking (Demo.trace Demo.healthy) = 2 /\
  returned m_validateTargetOrgVDCState (Demo.trace Demo.healthy) = true /\
  returned m_validateVappVMsMediaState (Demo.trace Demo.healthy) = true.
Proof.
  split; [reflexivity|].
  destruct (@mutations_only_after_the_gates _ Demo.platform Demo.cleanup
              Demo.healthy) as (H1 & H2 & H3 & _); [reflexivity|].
  split; [exact H1|]. split; [exact H2 | exact H3].
Defined.
